(** * cmake-node: the Windows delay-load notification hook

    A shallow embedding of [src/win_delay_load_hook.c] and
    [src/win_delay_load_hook.cc].  Both files define one callback,
    [load_exe_hook], and store its address in the well-known global
    [__pfnDliNotifyHook2]; the delay-load helper of the toolchain calls
    that global on every delay-load notification.

    The hook runs against a process: it reads the notification
    descriptor through a pointer, reads the requested library name
    through a second pointer, and asks the loader for the handle of the
    process image.  These three effects are kept explicit in a small
    state-and-fault monad, so that statements about what the hook reads,
    and about what it does with a pointer that is not valid, can be made. *)

From Stdlib Require Import ZArith Ascii String List Bool Lia.
From stdpp Require Import base option gmap strings.

Open Scope Z_scope.

(** ** The platform: memory, C strings, the two library calls *)

Module Win32.

(** Addresses, handles and function pointers are machine words; the
    hook never does arithmetic on them, it only compares and returns. *)
Definition NULL : Z := 0.

(** [DelayLoadProc] and [DelayLoadInfo] of <delayimp.h>, which the sources
    include and do not define.  Pointer-typed fields hold addresses.  The
    hook reads [szDll] alone. *)
Record DelayLoadProc : Type := mkDelayLoadProc {
  fImportByName : Z;
  szProcName_or_dwOrdinal : Z
}.

Record DelayLoadInfo : Type := mkDelayLoadInfo {
  cb : Z;
  pidd : Z;
  ppfn : Z;
  szDll : Z;
  dlp : DelayLoadProc;
  hmodCur : Z;
  pfnCur : Z;
  dwLastError : Z
}.

(** What a run touches, in the order it happens. *)
Inductive access : Type :=
| ReadSzDll (info : Z)            (* info->szDll *)
| ReadChars (a : Z)               (* the characters of the string at [a] *)
| CallGetModuleHandle (arg : Z).  (* GetModuleHandle(arg) *)

(** The process a hook call runs in.  [infos] and [cstrings] are the
    readable objects: a descriptor, or a character buffer, at an address.
    An address outside the map is not readable ([NULL] in particular when
    the map leaves it out).  [exe_module] is what the loader answers to a
    module lookup with no name, [NULL] when that lookup fails; [modules]
    are the other loaded images by name.  [log] records the accesses made
    so far. *)
Record Process : Type := mkProcess {
  infos : gmap Z DelayLoadInfo;
  cstrings : gmap Z string;
  exe_module : Z;
  modules : list (string * Z);
  log : list access
}.

Definition record_access (a : access) (s : Process) : Process :=
  {| infos := infos s; cstrings := cstrings s; exe_module := exe_module s;
     modules := modules s; log := log s ++ [a] |}.

(** A call either returns a value or faults: [Fault] stands for the
    undefined behaviour of reading through a pointer that is not valid. *)
Inductive outcome (A : Type) : Type :=
| Ret (a : A)
| Fault.
Arguments Ret {A} a.
Arguments Fault {A}.

Definition M (A : Type) : Type := Process -> outcome A * Process.

Definition ret {A} (a : A) : M A := fun s => (Ret a, s).

Definition fault {A} : M A := fun s => (Fault, s).

Definition bind {A B} (m : M A) (k : A -> M B) : M B := fun s =>
  match m s with
  | (Ret a, s') => k a s'
  | (Fault, s') => (Fault, s')
  end.

Notation "x <- m ;; k" := (bind m (fun x => k))
  (at level 100, m at next level, right associativity).

(** [info->szDll]. *)
Definition load_szDll (info : Z) : M Z := fun s =>
  let s' := record_access (ReadSzDll info) s in
  match infos s !! info with
  | Some d => (Ret (szDll d), s')
  | None => (Fault, s')
  end.

(** The C string held by a character buffer: the characters before the
    first NUL.  A buffer with no NUL holds no C string. *)
Fixpoint c_str (buf : string) : option string :=
  match buf with
  | EmptyString => None
  | String c rest =>
      if Ascii.eqb c Ascii.zero then Some EmptyString
      else option_map (String c) (c_str rest)
  end.

(** A [const char *] argument: an address, or a string literal of the
    program text (the compiler stores it followed by a NUL). *)
Inductive char_ptr : Type :=
| Addr (a : Z)
| Literal (chars : string).

Definition literal_buffer (chars : string) : string :=
  (chars ++ String Ascii.zero EmptyString)%string.

(** The characters stored from where a [const char *] points: the
    buffer at the address, or the literal with its NUL.  An address with
    no buffer at it cannot be read. *)
Definition chars_at (p : char_ptr) : M string :=
  match p with
  | Literal chars => ret (literal_buffer chars)
  | Addr a => fun s =>
      let s' := record_access (ReadChars a) s in
      match cstrings s !! a with
      | Some buf => (Ret buf, s')
      | None => (Fault, s')
      end
  end.

(** [unsigned char] value of a character. *)
Definition uchar (c : ascii) : Z := Z.of_N (N_of_ascii c).

(** The C runtime's [_stricmp] in the "C" locale: both strings are walked
    in step, each character lowered when it is one of 'A'..'Z', until the
    lowered characters differ or the left one is the terminator; the
    result is the last difference.  The walk reads no further than that:
    a buffer that ends before the walk does has been read past its end. *)
Definition __ascii_tolower (c : Z) : Z :=
  if (65 <=? c) && (c <=? 90) then c - 65 + 97 else c.

Fixpoint stricmp_in_step (lhs rhs : string) : option Z :=
  match lhs, rhs with
  | String c lhs', String d rhs' =>
      let f := __ascii_tolower (uchar c) in
      let l := __ascii_tolower (uchar d) in
      let result := f - l in
      if (result =? 0) && negb (f =? 0) then stricmp_in_step lhs' rhs'
      else Some result
  | _, _ => None
  end.

Definition _stricmp (string1 string2 : char_ptr) : M Z :=
  lhs <- chars_at string1 ;;
  rhs <- chars_at string2 ;;
  match stricmp_in_step lhs rhs with
  | Some result => ret result
  | None => fault
  end.

(** The same walk on two terminated strings, each given by its characters
    before the terminator. *)
Definition first_char (s : string) : Z :=
  match s with
  | EmptyString => 0
  | String c _ => uchar c
  end.

Fixpoint __ascii_stricmp (lhs rhs : string) : Z :=
  let f := __ascii_tolower (first_char lhs) in
  let l := __ascii_tolower (first_char rhs) in
  let result := f - l in
  match lhs, rhs with
  | String _ lhs', String _ rhs' =>
      if (result =? 0) && negb (f =? 0) then __ascii_stricmp lhs' rhs'
      else result
  | _, _ => result
  end.

(** [GetModuleHandle]: with no name, the image the process was created
    from; with a name, the loaded module of that name (compared without
    case), [NULL] when there is none. *)
Fixpoint find_module (name : string) (ms : list (string * Z)) : Z :=
  match ms with
  | [] => NULL
  | (n, h) :: rest =>
      if __ascii_stricmp name n =? 0 then h else find_module name rest
  end.

Definition GetModuleHandle (lpModuleName : Z) : M Z := fun s =>
  let s' := record_access (CallGetModuleHandle lpModuleName) s in
  if lpModuleName =? NULL then (Ret (exe_module s), s')
  else
    match cstrings s !! lpModuleName with
    | Some buf =>
        match c_str buf with
        | Some n => (Ret (find_module n (modules s)), s')
        | None => (Fault, s')
        end
    | None => (Fault, s')
    end.

End Win32.

Import Win32.

(** ** What a translation unit gives the linker *)

(** The macros the two files test, as the toolchain predefines them. *)
Record toolchain : Type := mkToolchain {
  _MSC_VER : bool;
  __clang__ : bool;
  __MINGW32__ : bool
}.

(** The type of the hook, [PfnDliHook] of <delayimp.h>:
    [FARPROC WINAPI (unsigned, PDelayLoadInfo)]. *)
Definition PfnDliHook : Type := Z -> Z -> M Z.

Inductive pragma : Type :=
| managed_push_off
| managed_pop
| comment_lib (library : string).

(** A global pointer is initialised with the address of a function of the
    same unit, named. *)
Inductive initializer : Type :=
| AddressOf (function : string).

Record translation_unit : Type := mkUnit {
  defined_macros : list string;   (* defined before the includes *)
  pragmas : list pragma;
  functions : gmap string PfnDliHook;
  globals : gmap string initializer
}.

Definition empty_unit : translation_unit :=
  {| defined_macros := []; pragmas := []; functions := ∅; globals := ∅ |}.

(** The hook the delay-load helper finds: the function whose address the
    global [__pfnDliNotifyHook2] was initialised with. *)
Definition registered_hook (u : translation_unit) : option PfnDliHook :=
  match globals u !! "__pfnDliNotifyHook2"%string with
  | Some (AddressOf f) => functions u !! f
  | None => None
  end.

(** A notification as the helper sends it: through the registered hook
    when there is one, and with no opinion otherwise. *)
Definition notify (u : translation_unit) (event info : Z) : M Z :=
  match registered_hook u with
  | Some hook => hook event info
  | None => ret NULL
  end.

(** [(FARPROC)m]: a pointer cast keeps the word. *)
Definition FARPROC_of_HMODULE (m : Z) : Z := m.

(** ** src/win_delay_load_hook.c *)

Module C_source.
Section Hook.

(** [dliNotePreLoadLibrary] comes from <delayimp.h> and [NODE_HOST_BINARY]
    from the build; neither is defined in the file. *)
Variable dliNotePreLoadLibrary : Z.
Variable NODE_HOST_BINARY : string.

Definition load_exe_hook (event : Z) (info : Z) : M Z :=
  if negb (event =? dliNotePreLoadLibrary) then ret NULL
  else
    name <- load_szDll info ;;
    c <- _stricmp (Addr name) (Literal NODE_HOST_BINARY) ;;
    if negb (c =? 0) then ret NULL
    else
      m <- GetModuleHandle NULL ;;
      ret (FARPROC_of_HMODULE m).

(** The whole file sits between [#ifdef _MSC_VER] and [#endif]. *)
Definition unit (tc : toolchain) : translation_unit :=
  if _MSC_VER tc then
    {| defined_macros := ["WIN32_LEAN_AND_MEAN"%string;
                          "DELAYIMP_INSECURE_WRITABLE_HOOKS"%string];
       pragmas := [managed_push_off;
                   comment_lib "kernel32.lib"; comment_lib "delayimp.lib";
                   managed_pop];
       functions := {[ "load_exe_hook"%string := load_exe_hook ]};
       globals := {[ "__pfnDliNotifyHook2"%string := AddressOf "load_exe_hook" ]} |}
  else empty_unit.

End Hook.
End C_source.

(** ** src/win_delay_load_hook.cc *)

Module Cxx_source.
Section Hook.

Variable dliNotePreLoadLibrary : Z.
Variable NODE_HOST_BINARY : string.

Definition load_exe_hook (event : Z) (info : Z) : M Z :=
  if negb (event =? dliNotePreLoadLibrary) then ret NULL
  else
    name <- load_szDll info ;;
    c <- _stricmp (Addr name) (Literal NODE_HOST_BINARY) ;;
    if negb (c =? 0) then ret NULL
    else
      m <- GetModuleHandle NULL ;;
      ret (FARPROC_of_HMODULE m).

(** Only the pragmas are conditional here: the two [managed] ones on
    [_MSC_VER] without [__clang__], the two [comment] ones on the absence
    of [__MINGW32__]. *)
Definition unit (tc : toolchain) : translation_unit :=
  let msvc := _MSC_VER tc && negb (__clang__ tc) in
  {| defined_macros := ["WIN32_LEAN_AND_MEAN"%string];
     pragmas :=
       (if msvc then [managed_push_off] else []) ++
       (if negb (__MINGW32__ tc)
        then [comment_lib "kernel32.lib"; comment_lib "delayimp.lib"]
        else []) ++
       (if msvc then [managed_pop] else []);
     functions := {[ "load_exe_hook"%string := load_exe_hook ]};
     globals := {[ "__pfnDliNotifyHook2"%string := AddressOf "load_exe_hook" ]} |}.

End Hook.
End Cxx_source.

(** ** Both variants under one name *)

Inductive variant : Type :=
| C_variant
| Cxx_variant.

Definition hook_of (v : variant) (dliNotePreLoadLibrary : Z)
    (NODE_HOST_BINARY : string) : PfnDliHook :=
  match v with
  | C_variant => C_source.load_exe_hook dliNotePreLoadLibrary NODE_HOST_BINARY
  | Cxx_variant => Cxx_source.load_exe_hook dliNotePreLoadLibrary NODE_HOST_BINARY
  end.

Definition unit_of (v : variant) (dliNotePreLoadLibrary : Z)
    (NODE_HOST_BINARY : string) (tc : toolchain) : translation_unit :=
  match v with
  | C_variant => C_source.unit dliNotePreLoadLibrary NODE_HOST_BINARY tc
  | Cxx_variant => Cxx_source.unit dliNotePreLoadLibrary NODE_HOST_BINARY tc
  end.

(** ** The words of the specification *)

(** The name a notification asks for: the C string the descriptor's
    [szDll] points at, when the descriptor pointer and the name pointer
    are both readable and the name is terminated. *)
Definition requested_name (s : Process) (info : Z) : option string :=
  match infos s !! info with
  | Some d =>
      match cstrings s !! szDll d with
      | Some buf => c_str buf
      | None => None
      end
  | None => None
  end.

(** The host-binary name the build configures: the C string of the
    literal, which ends at a NUL written inside the literal if there is
    one and at the end of the literal otherwise. *)
Fixpoint literal_value (chars : string) : string :=
  match chars with
  | EmptyString => EmptyString
  | String c rest =>
      if Ascii.eqb c Ascii.zero then EmptyString
      else String c (literal_value rest)
  end.

(** Two characters are the same up to letter case: equal, or one is a
    capital 'A'..'Z' and the other the small letter 32 places above. *)
Definition is_capital (x : Z) : bool := (65 <=? x) && (x <=? 90).

Definition same_char_ignoring_case (c d : ascii) : bool :=
  let x := uchar c in
  let y := uchar d in
  (x =? y) || (is_capital x && (y =? x + 32)) || (is_capital y && (x =? y + 32)).

(** Two names are equal without regard to case, or case variants of one
    another: same length, and the same up to case at every position. *)
Fixpoint equal_ignoring_case (a b : string) : bool :=
  match a, b with
  | EmptyString, EmptyString => true
  | String c a', String d b' =>
      same_char_ignoring_case c d && equal_ignoring_case a' b'
  | _, _ => false
  end.

(** The accesses a call added to the log. *)
Definition accesses_of {A} (m : M A) (s : Process) : list access :=
  drop (length (log s)) (log (snd (m s))).

(** The answer of a call, the process aside. *)
Definition result_of {A} (m : M A) (s : Process) : outcome A := fst (m s).

(** The lowered characters of a name. *)
Fixpoint lowered (s : string) : list Z :=
  match s with
  | EmptyString => []
  | String c rest => __ascii_tolower (uchar c) :: lowered rest
  end.

(** No NUL among the characters. *)
Fixpoint nul_free (s : string) : bool :=
  match s with
  | EmptyString => true
  | String c rest => negb (Ascii.eqb c Ascii.zero) && nul_free rest
  end.

(** The process after the descriptor read, after the name read, and after
    the module lookup. *)
Definition after_szDll (info : Z) (s : Process) : Process :=
  record_access (ReadSzDll info) s.

Definition after_name (info : Z) (d : DelayLoadInfo) (s : Process) : Process :=
  record_access (ReadChars (szDll d)) (after_szDll info s).

Definition after_lookup (info : Z) (d : DelayLoadInfo) (s : Process) : Process :=
  record_access (CallGetModuleHandle NULL) (after_name info d s).

(** The answer to a request whose name can be read: it depends on the
    event, the name and the image handle, and on nothing else. *)
Definition answer (dliNotePreLoadLibrary : Z) (NODE_HOST_BINARY : string)
    (event : Z) (name : string) (image : Z) : outcome Z :=
  if negb (event =? dliNotePreLoadLibrary) then Ret NULL
  else if __ascii_stricmp name (literal_value NODE_HOST_BINARY) =? 0
  then Ret image else Ret NULL.

(** [a] is, up to letter case, the beginning of [b]. *)
Fixpoint is_prefix_ignoring_case (a b : string) : bool :=
  match a, b with
  | EmptyString, _ => true
  | String c a', String d b' =>
      same_char_ignoring_case c d && is_prefix_ignoring_case a' b'
  | String _ _, EmptyString => false
  end.

(** A request the hook cannot compare without an invalid read: the
    descriptor pointer is not readable, or the name pointer is not, or the
    name buffer has no terminator and the whole of it is, up to case, the
    beginning of the configured host-binary name, so that the comparison
    runs off its end. *)
Definition unreadable_request (NODE_HOST_BINARY : string) (s : Process)
    (info : Z) : bool :=
  match infos s !! info with
  | None => true
  | Some d =>
      match cstrings s !! szDll d with
      | None => true
      | Some buf =>
          match c_str buf with
          | Some _ => false
          | None => is_prefix_ignoring_case buf (literal_value NODE_HOST_BINARY)
          end
      end
  end.

(** The process after [n] calls in a row. *)
Fixpoint after_calls {A} (n : nat) (m : M A) (s : Process) : Process :=
  match n with
  | O => s
  | S k => snd (m (after_calls k m s))
  end.

(** ** Sample processes

    A process with one descriptor at [info], whose [szDll] points at one
    character buffer at [name_at]; the other fields of the descriptor are
    filled from [filler]. *)
Definition descriptor (name_at filler : Z) : DelayLoadInfo :=
  {| cb := 72; pidd := filler; ppfn := filler + 8; szDll := name_at;
     dlp := {| fImportByName := 1; szProcName_or_dwOrdinal := filler + 16 |};
     hmodCur := filler + 24; pfnCur := filler + 32; dwLastError := filler mod 7 |}.

Definition process_asking (info name_at filler : Z) (buf : string) (image : Z)
    : Process :=
  {| infos := {[ info := descriptor name_at filler ]};
     cstrings := {[ name_at := buf ]};
     exe_module := image;
     modules := [];
     log := [] |}.

(** A process with nothing readable in it. *)
Definition bare_process (image : Z) : Process :=
  {| infos := ∅; cstrings := ∅; exe_module := image; modules := []; log := [] |}.

(** Microsoft's compiler, and GCC for Windows. *)
Definition msvc : toolchain :=
  {| _MSC_VER := true; __clang__ := false; __MINGW32__ := false |}.

Definition mingw_gcc : toolchain :=
  {| _MSC_VER := false; __clang__ := false; __MINGW32__ := true |}.

(** ** Pragmas of a unit

    [#pragma managed(push, off)] saves the current setting and
    [#pragma managed(pop)] restores the last saved one.  Walking the
    pragmas of a unit with the number of saved settings: a pop with nothing
    saved has no answer. *)
Fixpoint managed_depth (depth : nat) (ps : list pragma) : option nat :=
  match ps with
  | [] => Some depth
  | managed_push_off :: rest => managed_depth (S depth) rest
  | managed_pop :: rest =>
      match depth with
      | O => None
      | S d => managed_depth d rest
      end
  | comment_lib _ :: rest => managed_depth depth rest
  end.

(** ** Characters and C strings *)

Example stricmp_upper_lower : __ascii_stricmp "APP.EXE" "app.exe" = 0.
Proof. reflexivity. Qed.

Example stricmp_other : __ascii_stricmp "other.dll" "app.exe" = 14.
Proof. reflexivity. Qed.

Example stricmp_prefix : __ascii_stricmp "app" "app.exe" = -46.
Proof. reflexivity. Qed.

Example c_str_stops_at_nul :
  c_str (String "a" (String Ascii.zero (String "b" EmptyString))) = Some "a"%string.
Proof. reflexivity. Qed.

Example c_str_unterminated : c_str "abc" = None.
Proof. reflexivity. Qed.

Lemma uchar_range (c : ascii) : 0 <= uchar c < 256.
Proof.
  unfold uchar. pose proof (N_ascii_bounded c) as Hb. lia.
Qed.

Lemma uchar_zero_iff (c : ascii) : uchar c = 0 <-> c = Ascii.zero.
Proof.
  split.
  - intros H. unfold uchar in H.
    assert (Hn : N_of_ascii c = 0%N) by lia.
    rewrite <- (ascii_N_embedding c), Hn. reflexivity.
  - intros ->. reflexivity.
Qed.

Lemma tolower_zero_iff (c : ascii) :
  __ascii_tolower (uchar c) = 0 <-> c = Ascii.zero.
Proof.
  rewrite <- uchar_zero_iff. unfold __ascii_tolower.
  destruct ((65 <=? uchar c) && (uchar c <=? 90)) eqn:E; [|tauto].
  apply andb_true_iff in E as [E1 E2].
  apply Z.leb_le in E1. apply Z.leb_le in E2. lia.
Qed.

(** Lowering identifies exactly the characters that are the same up to
    case. *)
Lemma tolower_same_char (c d : ascii) :
  __ascii_tolower (uchar c) = __ascii_tolower (uchar d)
  <-> same_char_ignoring_case c d = true.
Proof.
  unfold same_char_ignoring_case, __ascii_tolower, is_capital.
  pose proof (uchar_range c). pose proof (uchar_range d).
  destruct (65 <=? uchar c) eqn:E1, (uchar c <=? 90) eqn:E2,
           (65 <=? uchar d) eqn:E3, (uchar d <=? 90) eqn:E4;
    cbn [andb orb];
    rewrite ?orb_true_iff, ?orb_false_r, ?Z.eqb_eq;
    try apply Z.leb_le in E1; try apply Z.leb_gt in E1;
    try apply Z.leb_le in E2; try apply Z.leb_gt in E2;
    try apply Z.leb_le in E3; try apply Z.leb_gt in E3;
    try apply Z.leb_le in E4; try apply Z.leb_gt in E4;
    lia.
Qed.

Lemma c_str_nul_free (buf n : string) : c_str buf = Some n -> nul_free n = true.
Proof.
  revert n. induction buf as [|c rest IH]; intros n H; simpl in H.
  - discriminate.
  - destruct (Ascii.eqb c Ascii.zero) eqn:E.
    + injection H as <-. reflexivity.
    + destruct (c_str rest) as [m|]; simpl in H; [|discriminate].
      injection H as <-. simpl. rewrite E. simpl. apply IH. reflexivity.
Qed.

Lemma requested_name_nul_free (s : Process) (info : Z) (name : string) :
  requested_name s info = Some name -> nul_free name = true.
Proof.
  unfold requested_name. intros H.
  destruct (infos s !! info) as [d|]; [|discriminate].
  destruct (cstrings s !! szDll d) as [buf|]; [|discriminate].
  apply (c_str_nul_free buf). exact H.
Qed.

Lemma c_str_literal (chars : string) :
  c_str (literal_buffer chars) = Some (literal_value chars).
Proof.
  unfold literal_buffer. induction chars as [|c rest IH]; simpl.
  - reflexivity.
  - destruct (Ascii.eqb c Ascii.zero); [reflexivity|].
    rewrite IH. reflexivity.
Qed.

Lemma literal_value_nul_free (chars : string) :
  nul_free (literal_value chars) = true.
Proof.
  apply (c_str_nul_free (literal_buffer chars)). apply c_str_literal.
Qed.

Lemma equal_ignoring_case_lowered (a b : string) :
  equal_ignoring_case a b = true <-> lowered a = lowered b.
Proof.
  revert b. induction a as [|c a IH]; intros [|d b]; simpl.
  - tauto.
  - split; discriminate.
  - split; discriminate.
  - rewrite andb_true_iff, <- tolower_same_char, IH.
    split.
    + intros [-> ->]. reflexivity.
    + intros H. injection H as H1 H2. auto.
Qed.

(** [_stricmp] answers 0 exactly on names with the same lowered
    characters. *)
Lemma stricmp_zero_lowered (a b : string) :
  nul_free a = true -> nul_free b = true ->
  (__ascii_stricmp a b = 0 <-> lowered a = lowered b).
Proof.
  revert b. induction a as [|c a IH]; intros [|d b] Ha Hb.
  - simpl. tauto.
  - simpl in *. apply andb_true_iff in Hb as [Hd _].
    apply negb_true_iff in Hd.
    split; [|discriminate]. intros H.
    assert (Hz : __ascii_tolower (uchar d) = 0).
    { unfold __ascii_tolower at 1 in H. simpl in H. lia. }
    apply tolower_zero_iff in Hz. subst d. discriminate.
  - simpl in *. apply andb_true_iff in Ha as [Hc _].
    apply negb_true_iff in Hc.
    split; [|discriminate]. intros H.
    assert (Hz : __ascii_tolower (uchar c) = 0).
    { unfold __ascii_tolower at 2 in H. simpl in H. lia. }
    apply tolower_zero_iff in Hz. subst c. discriminate.
  - simpl in Ha, Hb.
    apply andb_true_iff in Ha as [Hc Ha]. apply andb_true_iff in Hb as [Hd Hb].
    apply negb_true_iff in Hc.
    cbn [__ascii_stricmp first_char lowered].
    destruct (__ascii_tolower (uchar c) - __ascii_tolower (uchar d) =? 0) eqn:E.
    + apply Z.eqb_eq in E.
      assert (Hnz : (__ascii_tolower (uchar c) =? 0) = false).
      { apply Z.eqb_neq. intros Hz. apply tolower_zero_iff in Hz.
        subst c. discriminate. }
      rewrite Hnz. cbn [negb andb]. rewrite (IH b Ha Hb).
      split.
      * intros ->. f_equal. lia.
      * intros H. injection H as _ H. exact H.
    + apply Z.eqb_neq in E. cbn [andb].
      split; [intros H; contradiction|].
      intros H. injection H as H _. lia.
Qed.

Lemma stricmp_zero_iff (a b : string) :
  nul_free a = true -> nul_free b = true ->
  (__ascii_stricmp a b = 0 <-> equal_ignoring_case a b = true).
Proof.
  intros Ha Hb. rewrite equal_ignoring_case_lowered.
  apply stricmp_zero_lowered; assumption.
Qed.

(** ** The walk in step *)

Lemma c_str_cons_some (c : ascii) (rest b : string) :
  c_str (String c rest) = Some b ->
  (c = Ascii.zero /\ b = EmptyString) \/
  (c <> Ascii.zero /\ exists b', b = String c b' /\ c_str rest = Some b').
Proof.
  simpl. destruct (Ascii.eqb c Ascii.zero) eqn:E.
  - apply Ascii.eqb_eq in E. intros H. injection H as <-. left. auto.
  - apply Ascii.eqb_neq in E. intros H. right. split; [exact E|].
    destruct (c_str rest) as [b'|]; [|discriminate].
    injection H as <-. eauto.
Qed.

Lemma c_str_cons_none (c : ascii) (rest : string) :
  c_str (String c rest) = None -> c <> Ascii.zero /\ c_str rest = None.
Proof.
  simpl. destruct (Ascii.eqb c Ascii.zero) eqn:E; [discriminate|].
  apply Ascii.eqb_neq in E. intros H. split; [exact E|].
  destruct (c_str rest); [discriminate|reflexivity].
Qed.

(** The walk goes on exactly when the two characters are the same up to
    case and the left one is not the terminator. *)
Lemma walk_goes_on (c d : ascii) :
  ((__ascii_tolower (uchar c) - __ascii_tolower (uchar d) =? 0)
   && negb (__ascii_tolower (uchar c) =? 0)) = true
  <-> __ascii_tolower (uchar c) = __ascii_tolower (uchar d) /\ c <> Ascii.zero.
Proof.
  rewrite andb_true_iff, negb_true_iff, Z.eqb_eq, Z.eqb_neq, tolower_zero_iff.
  split; intros [H1 H2]; split; auto; lia.
Qed.

(** On two terminated buffers the walk stays inside both and computes
    the comparison of the two strings. *)
Lemma stricmp_in_step_terminated (lhs rhs a b : string) :
  c_str lhs = Some a -> c_str rhs = Some b ->
  stricmp_in_step lhs rhs = Some (__ascii_stricmp a b).
Proof.
  revert rhs a b. induction lhs as [|c lhs IH]; intros rhs a b Ha Hb.
  - discriminate.
  - destruct rhs as [|d rhs]; [discriminate|].
    cbn [stricmp_in_step].
    destruct ((__ascii_tolower (uchar c) - __ascii_tolower (uchar d) =? 0)
              && negb (__ascii_tolower (uchar c) =? 0)) eqn:Go.
    + apply walk_goes_on in Go as [Hfl Hc].
      apply c_str_cons_some in Ha as [[Hz _]|(_ & a' & -> & Ha)];
        [contradiction|].
      assert (Hd : d <> Ascii.zero).
      { intros ->. rewrite (proj2 (tolower_zero_iff Ascii.zero) eq_refl) in Hfl.
        apply tolower_zero_iff in Hfl. contradiction. }
      apply c_str_cons_some in Hb as [[Hz _]|(_ & b' & -> & Hb)];
        [contradiction|].
      cbn [__ascii_stricmp first_char].
      rewrite (proj2 (walk_goes_on c d) (conj Hfl Hc)).
      apply IH; assumption.
    + apply c_str_cons_some in Ha as [[-> ->]|(Hc & a' & -> & Ha)];
        apply c_str_cons_some in Hb as [[-> ->]|(Hd & b' & -> & Hb)];
        cbn [__ascii_stricmp first_char]; try reflexivity.
      rewrite Go. reflexivity.
Qed.

(** A walk that ends on 0 ended on the terminator of the left buffer. *)
Lemma stricmp_in_step_zero (lhs rhs : string) :
  stricmp_in_step lhs rhs = Some 0 -> exists a, c_str lhs = Some a.
Proof.
  revert rhs. induction lhs as [|c lhs IH]; intros rhs H.
  - discriminate.
  - destruct rhs as [|d rhs]; [discriminate|].
    cbn [stricmp_in_step] in H. simpl.
    destruct ((__ascii_tolower (uchar c) - __ascii_tolower (uchar d) =? 0)
              && negb (__ascii_tolower (uchar c) =? 0)) eqn:Go.
    + apply walk_goes_on in Go as [_ Hc].
      apply Ascii.eqb_neq in Hc. rewrite Hc.
      destruct (IH rhs H) as [a ->]. simpl. eauto.
    + injection H as H. rewrite H in Go. cbn [Z.eqb andb] in Go.
      apply negb_false_iff in Go. apply Z.eqb_eq in Go.
      apply tolower_zero_iff in Go. subst c. simpl. eauto.
Qed.

(** The walk sees the right buffer up to its terminator only, and only
    through the lowered characters. *)
Lemma stricmp_in_step_rhs (lhs r1 r2 b1 b2 : string) :
  c_str r1 = Some b1 -> c_str r2 = Some b2 -> lowered b1 = lowered b2 ->
  stricmp_in_step lhs r1 = stricmp_in_step lhs r2.
Proof.
  revert r1 r2 b1 b2.
  induction lhs as [|c lhs IH]; intros r1 r2 b1 b2 H1 H2 Hl.
  - reflexivity.
  - destruct r1 as [|d1 r1]; [discriminate|].
    destruct r2 as [|d2 r2]; [discriminate|].
    cbn [stricmp_in_step].
    apply c_str_cons_some in H1 as [[-> ->]|(Hd1 & b1' & -> & H1)];
      apply c_str_cons_some in H2 as [[-> ->]|(Hd2 & b2' & -> & H2)];
      try discriminate.
    + destruct ((__ascii_tolower (uchar c) - __ascii_tolower (uchar Ascii.zero) =? 0)
                && negb (__ascii_tolower (uchar c) =? 0)) eqn:Go; [|reflexivity].
      apply walk_goes_on in Go as [Hfl Hc].
      rewrite (proj2 (tolower_zero_iff Ascii.zero) eq_refl) in Hfl.
      apply tolower_zero_iff in Hfl. contradiction.
    + simpl in Hl. injection Hl as Hd Hl. rewrite Hd.
      destruct ((__ascii_tolower (uchar c) - __ascii_tolower (uchar d2) =? 0)
                && negb (__ascii_tolower (uchar c) =? 0)); [|reflexivity].
      apply (IH r1 r2 b1' b2'); assumption.
Qed.

(** With a terminated right buffer, the walk leaves the left buffer
    exactly when that buffer has no terminator and is, up to case, the
    beginning of the right string. *)
Lemma stricmp_in_step_none (lhs rhs b : string) :
  c_str rhs = Some b ->
  (stricmp_in_step lhs rhs = None
   <-> c_str lhs = None /\ is_prefix_ignoring_case lhs b = true).
Proof.
  revert rhs b. induction lhs as [|c lhs IH]; intros rhs b Hb.
  - simpl. tauto.
  - destruct rhs as [|d rhs]; [discriminate|].
    cbn [stricmp_in_step].
    destruct ((__ascii_tolower (uchar c) - __ascii_tolower (uchar d) =? 0)
              && negb (__ascii_tolower (uchar c) =? 0)) eqn:Go.
    + apply walk_goes_on in Go as [Hfl Hc].
      assert (Hd : d <> Ascii.zero).
      { intros ->. rewrite (proj2 (tolower_zero_iff Ascii.zero) eq_refl) in Hfl.
        apply tolower_zero_iff in Hfl. contradiction. }
      apply c_str_cons_some in Hb as [[Hz _]|(_ & b' & -> & Hb)];
        [contradiction|].
      rewrite (IH rhs b' Hb). cbn [is_prefix_ignoring_case].
      apply tolower_same_char in Hfl. rewrite Hfl. cbn [andb].
      simpl c_str. apply Ascii.eqb_neq in Hc. rewrite Hc.
      destruct (c_str lhs); simpl; split; intros [H1 H2];
        try discriminate; auto.
    + split; [discriminate|]. intros [Hn Hp]. exfalso.
      apply c_str_cons_none in Hn as [Hc Hn].
      apply c_str_cons_some in Hb as [[-> ->]|(Hd & b' & -> & Hb)].
      * discriminate.
      * cbn [is_prefix_ignoring_case] in Hp.
        apply andb_true_iff in Hp as [Hs _].
        apply tolower_same_char in Hs.
        rewrite (proj2 (walk_goes_on c d) (conj Hs Hc)) in Go. discriminate.
Qed.

(** ** The hook, step by step *)

Section HookSteps.

Variable v : variant.
Variable dliNotePreLoadLibrary : Z.
Variable NODE_HOST_BINARY : string.

Local Abbreviation hook := (hook_of v dliNotePreLoadLibrary NODE_HOST_BINARY).

(** Any other event: the answer is [NULL] and the process is as it was. *)
Lemma hook_other_event (event info : Z) (s : Process) :
  event <> dliNotePreLoadLibrary ->
  hook event info s = (Ret NULL, s).
Proof.
  intros Hne. apply Z.eqb_neq in Hne.
  destruct v; cbn [hook_of];
    unfold C_source.load_exe_hook, Cxx_source.load_exe_hook;
    rewrite Hne; reflexivity.
Qed.

(** The pre-load event, every case of it. *)
Lemma hook_pre_load (info : Z) (s : Process) :
  hook dliNotePreLoadLibrary info s =
  match infos s !! info with
  | None => (Fault, after_szDll info s)
  | Some d =>
      match cstrings s !! szDll d with
      | None => (Fault, after_name info d s)
      | Some buf =>
          match stricmp_in_step buf (literal_buffer NODE_HOST_BINARY) with
          | None => (Fault, after_name info d s)
          | Some c =>
              if c =? 0
              then (Ret (exe_module s), after_lookup info d s)
              else (Ret NULL, after_name info d s)
          end
      end
  end.
Proof.
  destruct v; cbn [hook_of];
    unfold C_source.load_exe_hook, Cxx_source.load_exe_hook;
    rewrite Z.eqb_refl; cbn [negb];
    unfold bind, load_szDll, _stricmp, bind, chars_at;
    (destruct (infos s !! info) as [d|] eqn:Ed; [|reflexivity]);
    cbn [record_access cstrings infos];
    (destruct (cstrings s !! szDll d) as [buf|] eqn:Eb; [|reflexivity]);
    unfold ret;
    (destruct (stricmp_in_step buf (literal_buffer NODE_HOST_BINARY))
       as [c|] eqn:En; [|reflexivity]);
    (destruct (c =? 0) eqn:Ec; reflexivity).
Qed.

(** With a readable, terminated name. *)
Lemma hook_pre_load_named (info : Z) (s : Process) (name : string) :
  requested_name s info = Some name ->
  exists d, infos s !! info = Some d /\
    hook dliNotePreLoadLibrary info s =
    if __ascii_stricmp name (literal_value NODE_HOST_BINARY) =? 0
    then (Ret (exe_module s), after_lookup info d s)
    else (Ret NULL, after_name info d s).
Proof.
  unfold requested_name. intros H. rewrite hook_pre_load.
  destruct (infos s !! info) as [d|]; [|discriminate].
  exists d. split; [reflexivity|].
  destruct (cstrings s !! szDll d) as [buf|]; [|discriminate].
  rewrite (stricmp_in_step_terminated buf (literal_buffer NODE_HOST_BINARY)
             name (literal_value NODE_HOST_BINARY) H
             (c_str_literal NODE_HOST_BINARY)).
  reflexivity.
Qed.

(** A walk that ends on 0 compared a readable name, equal to the
    configured one without regard to case. *)
Lemma walk_zero_named (info : Z) (s : Process) (d : DelayLoadInfo)
    (buf : string) :
  infos s !! info = Some d -> cstrings s !! szDll d = Some buf ->
  stricmp_in_step buf (literal_buffer NODE_HOST_BINARY) = Some 0 ->
  exists name,
    requested_name s info = Some name /\
    equal_ignoring_case name (literal_value NODE_HOST_BINARY) = true.
Proof.
  intros Hd Hb Hw. destruct (stricmp_in_step_zero _ _ Hw) as [name Hn].
  exists name. unfold requested_name. rewrite Hd, Hb. split; [exact Hn|].
  rewrite (stricmp_in_step_terminated buf (literal_buffer NODE_HOST_BINARY)
             name (literal_value NODE_HOST_BINARY) Hn
             (c_str_literal NODE_HOST_BINARY)) in Hw.
  injection Hw as Hw. apply stricmp_zero_iff; [| |exact Hw].
  - apply (c_str_nul_free buf). exact Hn.
  - apply literal_value_nul_free.
Qed.

Lemma hook_answer (event info : Z) (s : Process) (name : string) :
  requested_name s info = Some name ->
  result_of (hook event info) s =
  answer dliNotePreLoadLibrary NODE_HOST_BINARY event name (exe_module s).
Proof.
  intros Hn. unfold answer.
  destruct (event =? dliNotePreLoadLibrary) eqn:E; cbn [negb].
  - apply Z.eqb_eq in E. subst event. unfold result_of.
    destruct (hook_pre_load_named info s name Hn) as (d & _ & ->).
    destruct (__ascii_stricmp name (literal_value NODE_HOST_BINARY) =? 0);
      reflexivity.
  - apply Z.eqb_neq in E. unfold result_of.
    rewrite hook_other_event by exact E. reflexivity.
Qed.

(** The answer depends on what can be read and on the image handle, not
    on the log. *)
Lemma hook_result_frame (event info : Z) (s s' : Process) :
  infos s' = infos s -> cstrings s' = cstrings s ->
  exe_module s' = exe_module s ->
  result_of (hook event info) s' = result_of (hook event info) s.
Proof.
  intros Hi Hc He. unfold result_of.
  destruct (Z.eq_dec event dliNotePreLoadLibrary) as [->|Hne].
  - rewrite !hook_pre_load, Hi.
    destruct (infos s !! info) as [d|]; [|reflexivity].
    rewrite Hc.
    destruct (cstrings s !! szDll d) as [buf|]; [|reflexivity].
    destruct (stricmp_in_step buf (literal_buffer NODE_HOST_BINARY))
      as [c|]; [|reflexivity].
    destruct (c =? 0); cbn [fst]; [rewrite He|]; reflexivity.
  - rewrite !hook_other_event by exact Hne. reflexivity.
Qed.

(** A call changes nothing but the log. *)
Lemma hook_frame (event info : Z) (s : Process) :
  let s' := snd (hook event info s) in
  infos s' = infos s /\ cstrings s' = cstrings s /\
  exe_module s' = exe_module s /\ modules s' = modules s.
Proof.
  cbv zeta.
  destruct (Z.eq_dec event dliNotePreLoadLibrary) as [->|Hne].
  - rewrite hook_pre_load.
    destruct (infos s !! info) as [d|]; [|cbn; auto].
    destruct (cstrings s !! szDll d) as [buf|]; [|cbn; auto].
    destruct (stricmp_in_step buf (literal_buffer NODE_HOST_BINARY))
      as [c|]; [|cbn; auto].
    destruct (c =? 0); cbn; auto.
  - rewrite hook_other_event by exact Hne. cbn. auto.
Qed.

End HookSteps.

Lemma drop_log_3 (l : list access) (a b c : access) :
  drop (length l) (((l ++ [a]) ++ [b]) ++ [c]) = [a; b; c].
Proof.
  rewrite <- !app_assoc. rewrite drop_app_length. reflexivity.
Qed.

Lemma drop_log_0 (l : list access) : drop (length l) l = [].
Proof. apply drop_all. Qed.

(** ** The hook's contract *)

(** C1 (as amended): on the pre-load event with a requested name equal to
    the configured host-binary name without regard to case, the hook
    answers what the module lookup with no name answers, the image handle
    of the process; that answer is non-null whenever the lookup did not
    fail. *)
Theorem load_exe_hook_returns_image_handle
    (v : variant) (dliNotePreLoadLibrary : Z) (NODE_HOST_BINARY : string)
    (info : Z) (s : Process) (name : string) :
  requested_name s info = Some name ->
  equal_ignoring_case name (literal_value NODE_HOST_BINARY) = true ->
  let r := result_of
    (hook_of v dliNotePreLoadLibrary NODE_HOST_BINARY dliNotePreLoadLibrary info) s in
  r = result_of (GetModuleHandle NULL) s /\
  r = Ret (exe_module s) /\
  (exe_module s <> NULL -> r <> Ret NULL).
Proof.
  intros Hn Heq. cbv zeta. unfold result_of.
  destruct (hook_pre_load_named v dliNotePreLoadLibrary NODE_HOST_BINARY
              info s name Hn) as (d & _ & ->).
  apply stricmp_zero_iff in Heq;
    [|eapply requested_name_nul_free; eassumption
     |apply literal_value_nul_free].
  rewrite Heq. cbn.
  repeat split. intros Hnz H. injection H as H. contradiction.
Qed.

Lemma load_exe_hook_returns_image_handle_witness :
  let s := process_asking 4096 8192 0 (literal_buffer "APP.EXE") 4194304 in
  let r := result_of (hook_of C_variant 1 "app.exe" 1 4096) s in
  r = result_of (GetModuleHandle NULL) s /\
  r = Ret 4194304 /\
  (4194304 <> NULL -> r <> Ret NULL).
Proof.
  apply (load_exe_hook_returns_image_handle C_variant 1 "app.exe" 4096
           (process_asking 4096 8192 0 (literal_buffer "APP.EXE") 4194304)
           "APP.EXE").
  - vm_compute. reflexivity.
  - vm_compute. reflexivity.
Defined.

(** C1 as first stated fails: the hook hands on whatever the lookup
    answers, so in a process whose lookup fails the matching request gets
    a null answer. *)
Lemma load_exe_hook_match_can_answer_null :
  let s := process_asking 4096 8192 0 (literal_buffer "APP.EXE") NULL in
  requested_name s 4096 = Some "APP.EXE"%string /\
  equal_ignoring_case "APP.EXE" (literal_value "app.exe") = true /\
  result_of (GetModuleHandle NULL) s = Ret NULL /\
  result_of (hook_of C_variant 1 "app.exe" 1 4096) s = Ret NULL /\
  ~ (exists h, result_of (hook_of C_variant 1 "app.exe" 1 4096) s = Ret h /\
               h <> NULL).
Proof.
  vm_compute. repeat split.
  intros (h & Hh & Hnz). injection Hh as <-. apply Hnz. reflexivity.
Qed.

(** C2: on the pre-load event with a requested name that is not equal to
    the configured host-binary name without regard to case, the hook
    answers [NULL], no opinion. *)
Theorem load_exe_hook_other_name_no_opinion
    (v : variant) (dliNotePreLoadLibrary : Z) (NODE_HOST_BINARY : string)
    (info : Z) (s : Process) (name : string) :
  requested_name s info = Some name ->
  equal_ignoring_case name (literal_value NODE_HOST_BINARY) = false ->
  result_of
    (hook_of v dliNotePreLoadLibrary NODE_HOST_BINARY dliNotePreLoadLibrary info) s
  = Ret NULL.
Proof.
  intros Hn Hne. unfold result_of.
  destruct (hook_pre_load_named v dliNotePreLoadLibrary NODE_HOST_BINARY
              info s name Hn) as (d & _ & ->).
  destruct (__ascii_stricmp name (literal_value NODE_HOST_BINARY) =? 0) eqn:E;
    [|reflexivity].
  apply Z.eqb_eq in E. apply stricmp_zero_iff in E.
  - congruence.
  - eapply requested_name_nul_free; eassumption.
  - apply literal_value_nul_free.
Qed.

Lemma load_exe_hook_other_name_no_opinion_witness :
  result_of (hook_of Cxx_variant 1 "app.exe" 1 4096)
    (process_asking 4096 8192 0 (literal_buffer "other.dll") 4194304)
  = Ret NULL.
Proof.
  apply (load_exe_hook_other_name_no_opinion Cxx_variant 1 "app.exe" 4096
           (process_asking 4096 8192 0 (literal_buffer "other.dll") 4194304)
           "other.dll").
  - vm_compute. reflexivity.
  - vm_compute. reflexivity.
Defined.

(** C3: on any event other than the pre-load notification the hook
    answers [NULL], no opinion, whatever the descriptor pointer is and
    whatever the process holds at it. *)
Theorem load_exe_hook_other_event_no_opinion
    (v : variant) (dliNotePreLoadLibrary : Z) (NODE_HOST_BINARY : string)
    (event info : Z) (s : Process) :
  event <> dliNotePreLoadLibrary ->
  result_of (hook_of v dliNotePreLoadLibrary NODE_HOST_BINARY event info) s
  = Ret NULL.
Proof.
  intros Hne. unfold result_of.
  rewrite hook_other_event by exact Hne. reflexivity.
Qed.

Lemma load_exe_hook_other_event_no_opinion_witness :
  result_of (hook_of C_variant 1 "app.exe" 2 4096)
    (process_asking 4096 8192 0 (literal_buffer "app.exe") 4194304)
  = Ret NULL.
Proof.
  apply (load_exe_hook_other_event_no_opinion C_variant 1 "app.exe" 2 4096).
  lia.
Defined.

(** C4: the answer does not change when the requested name is replaced
    by a case variant of it, on every event. *)
Theorem load_exe_hook_case_invariant
    (v : variant) (dliNotePreLoadLibrary : Z) (NODE_HOST_BINARY : string)
    (event : Z) (info1 info2 : Z) (s1 s2 : Process) (name1 name2 : string) :
  requested_name s1 info1 = Some name1 ->
  requested_name s2 info2 = Some name2 ->
  equal_ignoring_case name1 name2 = true ->
  exe_module s1 = exe_module s2 ->
  result_of (hook_of v dliNotePreLoadLibrary NODE_HOST_BINARY event info1) s1
  = result_of (hook_of v dliNotePreLoadLibrary NODE_HOST_BINARY event info2) s2.
Proof.
  intros H1 H2 Hcase Himg.
  rewrite (hook_answer _ _ _ _ _ _ _ H1), (hook_answer _ _ _ _ _ _ _ H2), Himg.
  unfold answer.
  destruct (negb (event =? dliNotePreLoadLibrary)); [reflexivity|].
  pose proof (requested_name_nul_free _ _ _ H1) as N1.
  pose proof (requested_name_nul_free _ _ _ H2) as N2.
  pose proof (literal_value_nul_free NODE_HOST_BINARY) as Nh.
  apply equal_ignoring_case_lowered in Hcase.
  pose proof (stricmp_zero_lowered _ _ N1 Nh) as Z1.
  pose proof (stricmp_zero_lowered _ _ N2 Nh) as Z2.
  rewrite Hcase in Z1.
  destruct (__ascii_stricmp name1 (literal_value NODE_HOST_BINARY) =? 0) eqn:E1,
           (__ascii_stricmp name2 (literal_value NODE_HOST_BINARY) =? 0) eqn:E2;
    try reflexivity.
  - apply Z.eqb_eq in E1. apply Z.eqb_neq in E2. tauto.
  - apply Z.eqb_neq in E1. apply Z.eqb_eq in E2. tauto.
Qed.

Lemma load_exe_hook_case_invariant_witness :
  result_of (hook_of C_variant 1 "app.exe" 1 4096)
    (process_asking 4096 8192 0 (literal_buffer "APP.EXE") 4194304)
  = result_of (hook_of C_variant 1 "app.exe" 1 4096)
    (process_asking 4096 8192 0 (literal_buffer "app.exe") 4194304).
Proof.
  apply (load_exe_hook_case_invariant C_variant 1 "app.exe" 1 4096 4096
           (process_asking 4096 8192 0 (literal_buffer "APP.EXE") 4194304)
           (process_asking 4096 8192 0 (literal_buffer "app.exe") 4194304)
           "APP.EXE" "app.exe").
  - vm_compute. reflexivity.
  - vm_compute. reflexivity.
  - vm_compute. reflexivity.
  - reflexivity.
Defined.

(** C5: when the module lookup with no name fails, answering [NULL], the
    hook called on the pre-load event with a matching name answers [NULL]
    too; it made that one lookup, as its last step, and nothing after. *)
Theorem load_exe_hook_lookup_failure
    (v : variant) (dliNotePreLoadLibrary : Z) (NODE_HOST_BINARY : string)
    (info : Z) (s : Process) (name : string) :
  result_of (GetModuleHandle NULL) s = Ret NULL ->
  requested_name s info = Some name ->
  equal_ignoring_case name (literal_value NODE_HOST_BINARY) = true ->
  result_of
    (hook_of v dliNotePreLoadLibrary NODE_HOST_BINARY dliNotePreLoadLibrary info) s
  = Ret NULL /\
  exists a,
    accesses_of
      (hook_of v dliNotePreLoadLibrary NODE_HOST_BINARY dliNotePreLoadLibrary info) s
    = [ReadSzDll info; ReadChars a; CallGetModuleHandle NULL].
Proof.
  intros Hfail Hn Heq. unfold result_of, accesses_of.
  destruct (hook_pre_load_named v dliNotePreLoadLibrary NODE_HOST_BINARY
              info s name Hn) as (d & _ & ->).
  apply stricmp_zero_iff in Heq;
    [|eapply requested_name_nul_free; eassumption
     |apply literal_value_nul_free].
  rewrite Heq. cbn [Z.eqb fst snd].
  unfold result_of in Hfail. cbn in Hfail. injection Hfail as ->.
  split; [reflexivity|].
  exists (szDll d). cbn. apply drop_log_3.
Qed.

Lemma load_exe_hook_lookup_failure_witness :
  let s := process_asking 4096 8192 0 (literal_buffer "App.Exe") NULL in
  result_of (hook_of C_variant 1 "app.exe" 1 4096) s = Ret NULL /\
  exists a,
    accesses_of (hook_of C_variant 1 "app.exe" 1 4096) s
    = [ReadSzDll 4096; ReadChars a; CallGetModuleHandle NULL].
Proof.
  apply (load_exe_hook_lookup_failure C_variant 1 "app.exe" 4096
           (process_asking 4096 8192 0 (literal_buffer "App.Exe") NULL)
           "App.Exe").
  - reflexivity.
  - vm_compute. reflexivity.
  - vm_compute. reflexivity.
Defined.

(** C6: the answer is a function of the event and the requested name,
    the image handle of the process being fixed: two calls with the same
    event and the same requested name answer the same, whatever else the
    two descriptors hold and wherever they and the names are stored.  A
    requested name is the terminated string the descriptor points at. *)
Theorem load_exe_hook_function_of_event_and_name
    (v : variant) (dliNotePreLoadLibrary : Z) (NODE_HOST_BINARY : string)
    (event : Z) (info1 info2 : Z) (s1 s2 : Process) (name : string) :
  requested_name s1 info1 = Some name ->
  requested_name s2 info2 = Some name ->
  exe_module s1 = exe_module s2 ->
  result_of (hook_of v dliNotePreLoadLibrary NODE_HOST_BINARY event info1) s1
  = result_of (hook_of v dliNotePreLoadLibrary NODE_HOST_BINARY event info2) s2.
Proof.
  intros H1 H2 Himg.
  rewrite (hook_answer _ _ _ _ _ _ _ H1), (hook_answer _ _ _ _ _ _ _ H2), Himg.
  reflexivity.
Qed.

Lemma load_exe_hook_function_of_event_and_name_witness :
  result_of (hook_of C_variant 1 "app.exe" 1 4096)
    (process_asking 4096 8192 0 (literal_buffer "app.exe") 4194304)
  = result_of (hook_of C_variant 1 "app.exe" 1 12288)
    (process_asking 12288 20480 77
       (literal_buffer "app.exe" ++ "left over") 4194304).
Proof.
  apply (load_exe_hook_function_of_event_and_name C_variant 1 "app.exe" 1
           4096 12288 _ _ "app.exe").
  - vm_compute. reflexivity.
  - vm_compute. reflexivity.
  - reflexivity.
Defined.

(** C7: calling the hook again with the same event and the same
    descriptor gives the same answer as the first call, however many
    calls came between: a call leaves the descriptor, the name and the
    image handle of the process as they were. *)
Theorem load_exe_hook_repeatable
    (v : variant) (dliNotePreLoadLibrary : Z) (NODE_HOST_BINARY : string)
    (event info : Z) (s : Process) (n : nat) :
  result_of (hook_of v dliNotePreLoadLibrary NODE_HOST_BINARY event info)
    (after_calls n
       (hook_of v dliNotePreLoadLibrary NODE_HOST_BINARY event info) s)
  = result_of (hook_of v dliNotePreLoadLibrary NODE_HOST_BINARY event info) s.
Proof.
  set (hook := hook_of v dliNotePreLoadLibrary NODE_HOST_BINARY event info).
  assert (Hinv : infos (after_calls n hook s) = infos s /\
                 cstrings (after_calls n hook s) = cstrings s /\
                 exe_module (after_calls n hook s) = exe_module s).
  { induction n as [|k IH]; cbn [after_calls]; [auto|].
    destruct IH as (Hi & Hc & He).
    destruct (hook_frame v dliNotePreLoadLibrary NODE_HOST_BINARY event info
                (after_calls k hook s)) as (Fi & Fc & Fe & _).
    fold hook in Fi, Fc, Fe.
    rewrite Fi, Fc, Fe. auto. }
  destruct Hinv as (Hi & Hc & He).
  subst hook. apply hook_result_frame; assumption.
Qed.

(** C8: the hook of the C file and the hook of the C++ file are the same
    function: on every event, descriptor pointer and process they give
    the same answer and leave the same process. *)
Theorem load_exe_hook_variants_agree
    (dliNotePreLoadLibrary : Z) (NODE_HOST_BINARY : string)
    (event info : Z) (s : Process) :
  C_source.load_exe_hook dliNotePreLoadLibrary NODE_HOST_BINARY event info s
  = Cxx_source.load_exe_hook dliNotePreLoadLibrary NODE_HOST_BINARY event info s.
Proof.
  destruct (Z.eq_dec event dliNotePreLoadLibrary) as [->|Hne].
  - rewrite (hook_pre_load C_variant dliNotePreLoadLibrary NODE_HOST_BINARY info s
             : C_source.load_exe_hook _ _ _ _ _ = _).
    rewrite (hook_pre_load Cxx_variant dliNotePreLoadLibrary NODE_HOST_BINARY info s
             : Cxx_source.load_exe_hook _ _ _ _ _ = _).
    reflexivity.
  - rewrite (hook_other_event C_variant dliNotePreLoadLibrary NODE_HOST_BINARY
               event info s Hne : C_source.load_exe_hook _ _ _ _ _ = _).
    rewrite (hook_other_event Cxx_variant dliNotePreLoadLibrary NODE_HOST_BINARY
               event info s Hne : Cxx_source.load_exe_hook _ _ _ _ _ = _).
    reflexivity.
Qed.

(** C9 (as amended): in the C++ file under every toolchain, and in the C
    file whenever [_MSC_VER] is defined, the global [__pfnDliNotifyHook2]
    is initialised with the address of [load_exe_hook], so the hook the
    delay-load helper finds is that function. *)
Theorem pfnDliNotifyHook2_points_at_load_exe_hook
    (v : variant) (dliNotePreLoadLibrary : Z) (NODE_HOST_BINARY : string)
    (tc : toolchain) :
  (v = C_variant -> _MSC_VER tc = true) ->
  let u := unit_of v dliNotePreLoadLibrary NODE_HOST_BINARY tc in
  globals u !! "__pfnDliNotifyHook2"%string = Some (AddressOf "load_exe_hook") /\
  functions u !! "load_exe_hook"%string
    = Some (hook_of v dliNotePreLoadLibrary NODE_HOST_BINARY) /\
  registered_hook u = Some (hook_of v dliNotePreLoadLibrary NODE_HOST_BINARY) /\
  forall event info s,
    notify u event info s
    = hook_of v dliNotePreLoadLibrary NODE_HOST_BINARY event info s.
Proof.
  intros Hmsc. cbv zeta. unfold notify, registered_hook.
  destruct v; cbn [unit_of hook_of].
  - unfold C_source.unit. rewrite (Hmsc eq_refl). cbn [globals functions].
    rewrite !lookup_singleton_eq. auto.
  - unfold Cxx_source.unit. cbn [globals functions].
    rewrite !lookup_singleton_eq. auto.
Qed.

Lemma pfnDliNotifyHook2_points_at_load_exe_hook_witness :
  let u := unit_of C_variant 1 "node.exe" msvc in
  globals u !! "__pfnDliNotifyHook2"%string = Some (AddressOf "load_exe_hook") /\
  functions u !! "load_exe_hook"%string = Some (hook_of C_variant 1 "node.exe") /\
  registered_hook u = Some (hook_of C_variant 1 "node.exe") /\
  forall event info s,
    notify u event info s = hook_of C_variant 1 "node.exe" event info s.
Proof.
  apply (pfnDliNotifyHook2_points_at_load_exe_hook C_variant 1 "node.exe" msvc).
  intros _. reflexivity.
Defined.

(** C9 as first stated fails for the C file: without [_MSC_VER] the
    preprocessor drops the whole file, the unit defines no
    [__pfnDliNotifyHook2], the helper finds no hook, and a request for
    the host binary itself gets no opinion. *)
Lemma c_file_without_msc_ver_registers_nothing :
  let u := unit_of C_variant 1 "node.exe" mingw_gcc in
  let s := process_asking 4096 8192 0 (literal_buffer "node.exe") 4194304 in
  globals u !! "__pfnDliNotifyHook2"%string <> Some (AddressOf "load_exe_hook") /\
  globals u !! "__pfnDliNotifyHook2"%string = None /\
  registered_hook u = None /\
  notify u 1 4096 s = (Ret NULL, s) /\
  hook_of C_variant 1 "node.exe" 1 4096 s
  = (Ret 4194304, after_lookup 4096 (descriptor 8192 0) s).
Proof.
  cbv zeta. unfold notify, registered_hook. cbn [unit_of].
  unfold C_source.unit. cbn [mingw_gcc _MSC_VER empty_unit globals].
  rewrite lookup_empty.
  split; [discriminate|].
  split; [reflexivity|].
  split; [reflexivity|].
  split; [reflexivity|].
  vm_compute. reflexivity.
Qed.

(** On the pre-load event the descriptor is read first, so a null
    descriptor pointer faults there, after that one read. *)
Example pre_load_with_null_descriptor :
  hook_of C_variant 1 "app.exe" 1 NULL (bare_process 4194304)
  = (Fault, after_szDll NULL (bare_process 4194304)).
Proof. vm_compute. reflexivity. Qed.

Example pre_load_with_matching_name :
  let s := process_asking 4096 8192 0 (literal_buffer "APP.EXE") 4194304 in
  hook_of Cxx_variant 1 "app.exe" 1 4096 s
  = (Ret 4194304, after_lookup 4096 (descriptor 8192 0) s).
Proof. vm_compute. reflexivity. Qed.

(** An unterminated name that differs from the configured one is told
    apart before its end; one that agrees with it to its end is not. *)
Example unterminated_other_name :
  let s := process_asking 4096 8192 0 "other.dll" 4194304 in
  requested_name s 4096 = None /\
  hook_of C_variant 1 "app.exe" 1 4096 s
  = (Ret NULL, after_name 4096 (descriptor 8192 0) s).
Proof. vm_compute. split; reflexivity. Qed.

Example unterminated_host_name :
  let s := process_asking 4096 8192 0 "APP.EXE" 4194304 in
  requested_name s 4096 = None /\
  hook_of C_variant 1 "app.exe" 1 4096 s
  = (Fault, after_name 4096 (descriptor 8192 0) s).
Proof. vm_compute. split; reflexivity. Qed.

(** C10: on any event other than the pre-load notification the hook
    returns without reading anything: the process, its log of accesses
    included, is as it was, for every descriptor pointer, the null pointer
    and pointers to nothing among them.  The descriptor is read only on
    the pre-load event. *)
Theorem load_exe_hook_other_event_reads_nothing
    (v : variant) (dliNotePreLoadLibrary : Z) (NODE_HOST_BINARY : string)
    (event info : Z) (s : Process) :
  event <> dliNotePreLoadLibrary ->
  hook_of v dliNotePreLoadLibrary NODE_HOST_BINARY event info s = (Ret NULL, s) /\
  accesses_of (hook_of v dliNotePreLoadLibrary NODE_HOST_BINARY event info) s = [].
Proof.
  intros Hne. unfold accesses_of.
  rewrite hook_other_event by exact Hne.
  split; [reflexivity|]. cbn [snd]. apply drop_log_0.
Qed.

Lemma load_exe_hook_other_event_reads_nothing_witness :
  hook_of C_variant 1 "app.exe" 0 NULL (bare_process 4194304)
    = (Ret NULL, bare_process 4194304) /\
  accesses_of (hook_of C_variant 1 "app.exe" 0 NULL) (bare_process 4194304) = [].
Proof.
  apply (load_exe_hook_other_event_reads_nothing C_variant 1 "app.exe" 0 NULL
           (bare_process 4194304)).
  lia.
Defined.

(** ** More of what the hook does and does not do *)

Lemma drop_log_1 (l : list access) (a : access) :
  drop (length l) (l ++ [a]) = [a].
Proof. apply drop_app_length. Qed.

Lemma drop_log_2 (l : list access) (a b : access) :
  drop (length l) ((l ++ [a]) ++ [b]) = [a; b].
Proof. rewrite <- app_assoc. apply drop_app_length. Qed.

Lemma lowered_length (a : string) : length (lowered a) = String.length a.
Proof.
  induction a as [|c a IH]; simpl; [reflexivity|]. rewrite IH. reflexivity.
Qed.

(** The accesses of a call, case by case. *)
Lemma hook_accesses (v : variant) (dliNotePreLoadLibrary : Z)
    (NODE_HOST_BINARY : string) (event info : Z) (s : Process) :
  accesses_of (hook_of v dliNotePreLoadLibrary NODE_HOST_BINARY event info) s =
  if negb (event =? dliNotePreLoadLibrary) then []
  else
    match infos s !! info with
    | None => [ReadSzDll info]
    | Some d =>
        match cstrings s !! szDll d with
        | None => [ReadSzDll info; ReadChars (szDll d)]
        | Some buf =>
            match stricmp_in_step buf (literal_buffer NODE_HOST_BINARY) with
            | Some 0 =>
                [ReadSzDll info; ReadChars (szDll d); CallGetModuleHandle NULL]
            | _ => [ReadSzDll info; ReadChars (szDll d)]
            end
        end
    end.
Proof.
  unfold accesses_of.
  destruct (event =? dliNotePreLoadLibrary) eqn:E; cbn [negb].
  - apply Z.eqb_eq in E. subst event. rewrite hook_pre_load.
    destruct (infos s !! info) as [d|]; [|apply drop_log_1].
    destruct (cstrings s !! szDll d) as [buf|]; [|apply drop_log_2].
    destruct (stricmp_in_step buf (literal_buffer NODE_HOST_BINARY))
      as [c|]; [|apply drop_log_2].
    destruct c as [|c|c]; cbn [Z.eqb snd].
    + apply drop_log_3.
    + apply drop_log_2.
    + apply drop_log_2.
  - apply Z.eqb_neq in E. rewrite hook_other_event by exact E.
    apply drop_log_0.
Qed.

(** X1: the hook faults exactly when it is called on the pre-load event
    with a request it cannot compare without an invalid read: the
    descriptor pointer is not readable, or the name pointer is not, or the
    name has no terminator and the comparison runs off its end because the
    whole of it is, up to case, the beginning of the configured name.  The
    hook checks none of this.  An unterminated name that differs from the
    configured one before its end gets an answer. *)
Theorem load_exe_hook_faults_iff
    (v : variant) (dliNotePreLoadLibrary : Z) (NODE_HOST_BINARY : string)
    (event info : Z) (s : Process) :
  result_of (hook_of v dliNotePreLoadLibrary NODE_HOST_BINARY event info) s = Fault
  <-> event = dliNotePreLoadLibrary /\
      unreadable_request NODE_HOST_BINARY s info = true.
Proof.
  unfold result_of, unreadable_request.
  destruct (Z.eq_dec event dliNotePreLoadLibrary) as [->|Hne].
  - rewrite hook_pre_load.
    destruct (infos s !! info) as [d|]; [|cbn; tauto].
    destruct (cstrings s !! szDll d) as [buf|]; [|cbn; tauto].
    pose proof (stricmp_in_step_none buf (literal_buffer NODE_HOST_BINARY)
                  (literal_value NODE_HOST_BINARY)
                  (c_str_literal NODE_HOST_BINARY)) as Hnone.
    destruct (stricmp_in_step buf (literal_buffer NODE_HOST_BINARY)) as [c|].
    + assert (Hno : ~ (c_str buf = None /\
                       is_prefix_ignoring_case buf
                         (literal_value NODE_HOST_BINARY) = true)).
      { intros H. apply Hnone in H. discriminate. }
      split.
      * destruct (c =? 0); discriminate.
      * intros [_ H]. exfalso. apply Hno.
        destruct (c_str buf); [discriminate|]. auto.
    + destruct (proj1 Hnone eq_refl) as [-> Hp]. cbn. tauto.
  - rewrite hook_other_event by exact Hne. cbn.
    split; [discriminate|]. intros [H _]. contradiction.
Qed.

(** X2: a non-null answer is given only on the pre-load event, only for a
    requested name equal to the configured host-binary name without regard
    to case, and it is the image handle of the process: the hook resolves
    no other library and hands out no other handle. *)
Theorem load_exe_hook_non_null_only_for_host
    (v : variant) (dliNotePreLoadLibrary : Z) (NODE_HOST_BINARY : string)
    (event info : Z) (s : Process) (h : Z) :
  result_of (hook_of v dliNotePreLoadLibrary NODE_HOST_BINARY event info) s = Ret h ->
  h <> NULL ->
  event = dliNotePreLoadLibrary /\
  h = exe_module s /\
  exists name,
    requested_name s info = Some name /\
    equal_ignoring_case name (literal_value NODE_HOST_BINARY) = true.
Proof.
  unfold result_of. intros Hr Hnz.
  destruct (Z.eq_dec event dliNotePreLoadLibrary) as [->|Hne].
  - split; [reflexivity|]. rewrite hook_pre_load in Hr.
    destruct (infos s !! info) as [d|] eqn:Ed; [|discriminate].
    destruct (cstrings s !! szDll d) as [buf|] eqn:Eb; [|discriminate].
    destruct (stricmp_in_step buf (literal_buffer NODE_HOST_BINARY))
      as [c|] eqn:Ew; [|discriminate].
    destruct (c =? 0) eqn:Ec; cbn [fst] in Hr; injection Hr as <-;
      [|contradiction].
    split; [reflexivity|].
    apply Z.eqb_eq in Ec. subst c.
    exact (walk_zero_named NODE_HOST_BINARY
             info s d buf Ed Eb Ew).
  - rewrite hook_other_event in Hr by exact Hne.
    injection Hr as <-. contradiction.
Qed.

Lemma load_exe_hook_non_null_only_for_host_witness :
  let s := process_asking 4096 8192 0 (literal_buffer "APP.EXE") 4194304 in
  1 = 1 /\
  4194304 = exe_module s /\
  exists name,
    requested_name s 4096 = Some name /\
    equal_ignoring_case name (literal_value "app.exe") = true.
Proof.
  apply (load_exe_hook_non_null_only_for_host C_variant 1 "app.exe" 1 4096
           (process_asking 4096 8192 0 (literal_buffer "APP.EXE") 4194304)
           4194304).
  - vm_compute. reflexivity.
  - unfold NULL. lia.
Defined.

(** X3: the hook asks the loader for a module only with no name, only on
    the pre-load event and only when the requested name equals the
    configured host-binary name without regard to case; a notification for
    any other library costs no lookup. *)
Theorem load_exe_hook_lookup_only_for_host
    (v : variant) (dliNotePreLoadLibrary : Z) (NODE_HOST_BINARY : string)
    (event info : Z) (s : Process) (arg : Z) :
  In (CallGetModuleHandle arg)
     (accesses_of (hook_of v dliNotePreLoadLibrary NODE_HOST_BINARY event info) s) ->
  arg = NULL /\
  event = dliNotePreLoadLibrary /\
  exists name,
    requested_name s info = Some name /\
    equal_ignoring_case name (literal_value NODE_HOST_BINARY) = true.
Proof.
  rewrite hook_accesses.
  destruct (event =? dliNotePreLoadLibrary) eqn:E; cbn [negb];
    [|intros []].
  apply Z.eqb_eq in E.
  destruct (infos s !! info) as [d|] eqn:Ed.
  - destruct (cstrings s !! szDll d) as [buf|] eqn:Eb.
    + destruct (stricmp_in_step buf (literal_buffer NODE_HOST_BINARY))
        as [[|c|c]|] eqn:Ew.
      * intros [H|[H|[H|[]]]]; try discriminate.
        injection H as <-. split; [reflexivity|]. split; [exact E|].
        exact (walk_zero_named NODE_HOST_BINARY
                 info s d buf Ed Eb Ew).
      * intros [H|[H|[]]]; discriminate.
      * intros [H|[H|[]]]; discriminate.
      * intros [H|[H|[]]]; discriminate.
    + intros [H|[H|[]]]; discriminate.
  - intros [H|[]]; discriminate.
Qed.

Lemma load_exe_hook_lookup_only_for_host_witness :
  let s := process_asking 4096 8192 0 (literal_buffer "APP.EXE") 4194304 in
  NULL = NULL /\
  1 = 1 /\
  exists name,
    requested_name s 4096 = Some name /\
    equal_ignoring_case name (literal_value "app.exe") = true.
Proof.
  apply (load_exe_hook_lookup_only_for_host C_variant 1 "app.exe" 1 4096
           (process_asking 4096 8192 0 (literal_buffer "APP.EXE") 4194304)
           NULL).
  vm_compute. right. right. left. reflexivity.
Defined.

(** X4: whatever a call touches, it touches on the pre-load event, and it
    is the descriptor it was handed, the characters at the address that
    descriptor's [szDll] holds, or the module lookup with no name: no
    other field's target, no other descriptor, no other string. *)
Theorem load_exe_hook_touches_only_descriptor_and_name
    (v : variant) (dliNotePreLoadLibrary : Z) (NODE_HOST_BINARY : string)
    (event info : Z) (s : Process) (x : access) :
  In x (accesses_of (hook_of v dliNotePreLoadLibrary NODE_HOST_BINARY event info) s) ->
  event = dliNotePreLoadLibrary /\
  (x = ReadSzDll info \/
   (exists d, infos s !! info = Some d /\ x = ReadChars (szDll d)) \/
   x = CallGetModuleHandle NULL).
Proof.
  rewrite hook_accesses.
  destruct (event =? dliNotePreLoadLibrary) eqn:E; cbn [negb];
    [|intros []].
  apply Z.eqb_eq in E. intros Hin. split; [exact E|].
  destruct (infos s !! info) as [d|].
  - assert (Hall : In x [ReadSzDll info; ReadChars (szDll d);
                         CallGetModuleHandle NULL]).
    { destruct (cstrings s !! szDll d) as [buf|];
        [destruct (stricmp_in_step buf (literal_buffer NODE_HOST_BINARY))
           as [[|c|c]|]|];
        cbn in Hin |- *; tauto. }
    destruct Hall as [<-|[<-|[<-|[]]]]; eauto.
  - destruct Hin as [<-|[]]. auto.
Qed.

Lemma load_exe_hook_touches_only_descriptor_and_name_witness :
  let s := process_asking 4096 8192 0 (literal_buffer "other.dll") 4194304 in
  1 = 1 /\
  (ReadChars 8192 = ReadSzDll 4096 \/
   (exists d, infos s !! 4096 = Some d /\ ReadChars 8192 = ReadChars (szDll d)) \/
   ReadChars 8192 = CallGetModuleHandle NULL).
Proof.
  apply (load_exe_hook_touches_only_descriptor_and_name C_variant 1 "app.exe"
           1 4096
           (process_asking 4096 8192 0 (literal_buffer "other.dll") 4194304)
           (ReadChars 8192)).
  vm_compute. right. left. reflexivity.
Defined.

(** X5: the comparison is of the whole name: a requested name whose
    length differs from that of the configured host-binary name, a path
    ending in it or the name with something appended, gets no opinion. *)
Theorem load_exe_hook_other_length_no_opinion
    (v : variant) (dliNotePreLoadLibrary : Z) (NODE_HOST_BINARY : string)
    (info : Z) (s : Process) (name : string) :
  requested_name s info = Some name ->
  String.length name <> String.length (literal_value NODE_HOST_BINARY) ->
  result_of
    (hook_of v dliNotePreLoadLibrary NODE_HOST_BINARY dliNotePreLoadLibrary info) s
  = Ret NULL.
Proof.
  intros Hn Hlen. unfold result_of.
  destruct (hook_pre_load_named v dliNotePreLoadLibrary NODE_HOST_BINARY
              info s name Hn) as (d & _ & ->).
  destruct (__ascii_stricmp name (literal_value NODE_HOST_BINARY) =? 0) eqn:E;
    [|reflexivity].
  exfalso. apply Hlen.
  apply Z.eqb_eq in E. apply stricmp_zero_lowered in E.
  - rewrite <- !lowered_length, E. reflexivity.
  - eapply requested_name_nul_free; eassumption.
  - apply literal_value_nul_free.
Qed.

Lemma load_exe_hook_other_length_no_opinion_witness :
  result_of (hook_of C_variant 1 "node.exe" 1 4096)
    (process_asking 4096 8192 0 (literal_buffer "bin\node.exe") 4194304)
  = Ret NULL.
Proof.
  apply (load_exe_hook_other_length_no_opinion C_variant 1 "node.exe" 4096
           (process_asking 4096 8192 0 (literal_buffer "bin\node.exe") 4194304)
           "bin\node.exe").
  - vm_compute. reflexivity.
  - vm_compute. lia.
Defined.

(** X6: the letter case of the configured host-binary name does not
    matter either: two builds whose [NODE_HOST_BINARY] are case variants of
    each other give hooks that answer the same and touch the same on every
    call. *)
Theorem load_exe_hook_host_name_case_irrelevant
    (v : variant) (dliNotePreLoadLibrary : Z) (host1 host2 : string)
    (event info : Z) (s : Process) :
  equal_ignoring_case (literal_value host1) (literal_value host2) = true ->
  hook_of v dliNotePreLoadLibrary host1 event info s
  = hook_of v dliNotePreLoadLibrary host2 event info s.
Proof.
  intros Hv.
  destruct (Z.eq_dec event dliNotePreLoadLibrary) as [->|Hne].
  - rewrite !hook_pre_load.
    destruct (infos s !! info) as [d|]; [|reflexivity].
    destruct (cstrings s !! szDll d) as [buf|]; [|reflexivity].
    rewrite (stricmp_in_step_rhs buf (literal_buffer host1)
               (literal_buffer host2) (literal_value host1)
               (literal_value host2) (c_str_literal host1)
               (c_str_literal host2)); [reflexivity|].
    apply equal_ignoring_case_lowered. exact Hv.
  - rewrite !hook_other_event by exact Hne. reflexivity.
Qed.

Lemma load_exe_hook_host_name_case_irrelevant_witness :
  hook_of Cxx_variant 1 "Node.EXE" 1 4096
    (process_asking 4096 8192 0 (literal_buffer "NODE.exe") 4194304)
  = hook_of Cxx_variant 1 "node.exe" 1 4096
    (process_asking 4096 8192 0 (literal_buffer "NODE.exe") 4194304).
Proof.
  apply (load_exe_hook_host_name_case_irrelevant Cxx_variant 1
           "Node.EXE" "node.exe" 1 4096).
  vm_compute. reflexivity.
Defined.

(** ** More of what the two files give the linker *)

(** X7: in both files and under every toolchain the [managed] pragmas are
    balanced: each pop restores a setting the same file pushed, and
    nothing stays pushed at the end of the file. *)
Theorem managed_pragmas_balanced
    (v : variant) (dliNotePreLoadLibrary : Z) (NODE_HOST_BINARY : string)
    (tc : toolchain) :
  managed_depth 0
    (pragmas (unit_of v dliNotePreLoadLibrary NODE_HOST_BINARY tc))
  = Some 0%nat.
Proof.
  destruct tc as [m c g]. destruct v; cbn [unit_of].
  - unfold C_source.unit. cbn [_MSC_VER]. destruct m; reflexivity.
  - unfold Cxx_source.unit. cbn [_MSC_VER __clang__ __MINGW32__ pragmas].
    destruct m, c, g; reflexivity.
Qed.

(** X8: a unit that registers the hook under a toolchain that is not
    MinGW also tells the linker to search kernel32.lib and delayimp.lib,
    the libraries of [GetModuleHandle] and of the delay-load helper. *)
Theorem registering_unit_links_its_libraries
    (v : variant) (dliNotePreLoadLibrary : Z) (NODE_HOST_BINARY : string)
    (tc : toolchain) :
  __MINGW32__ tc = false ->
  globals (unit_of v dliNotePreLoadLibrary NODE_HOST_BINARY tc)
    !! "__pfnDliNotifyHook2"%string <> None ->
  In (comment_lib "kernel32.lib")
     (pragmas (unit_of v dliNotePreLoadLibrary NODE_HOST_BINARY tc)) /\
  In (comment_lib "delayimp.lib")
     (pragmas (unit_of v dliNotePreLoadLibrary NODE_HOST_BINARY tc)).
Proof.
  destruct tc as [m c g]. cbn [__MINGW32__]. intros -> Hreg.
  destruct v; cbn [unit_of] in *.
  - unfold C_source.unit in *. cbn [_MSC_VER] in *. destruct m.
    + cbn. auto.
    + exfalso. apply Hreg. cbn [empty_unit globals]. apply lookup_empty.
  - unfold Cxx_source.unit. cbn [_MSC_VER __clang__ __MINGW32__ pragmas negb].
    split; apply in_or_app; right; apply in_or_app; left; cbn; auto.
Qed.

Lemma registering_unit_links_its_libraries_witness :
  In (comment_lib "kernel32.lib") (pragmas (unit_of Cxx_variant 1 "node.exe" msvc)) /\
  In (comment_lib "delayimp.lib") (pragmas (unit_of Cxx_variant 1 "node.exe" msvc)).
Proof.
  apply (registering_unit_links_its_libraries Cxx_variant 1 "node.exe" msvc).
  - reflexivity.
  - cbn [unit_of]. unfold Cxx_source.unit. cbn [globals].
    rewrite lookup_singleton_eq. discriminate.
Defined.
